(** * Upload orchestration of the FileUpload component

    A shallow embedding of [FileUpload.tsx] (the React component that
    selects a spreadsheet, probes the backend, uploads the file and
    offers the processed result for download) together with the two
    interfaces of [types/index.ts].

    The component keeps five [useState] cells.  Every handler is a
    sequence of writes to those cells interleaved with calls to the
    outside world ([fetch], [response.json()], the DOM).  A handler is
    therefore modelled as a computation that logs its writes and calls
    in program order and may end in a thrown value; the answers of the
    outside world are inputs of the handler.  Console output is not part
    of the model. *)

From Stdlib Require Import String Ascii List Bool Arith Lia.
From Stdlib Require Import Strings.Byte.
From Stdlib Require Import Decimal DecimalString.
From Stdlib Require DecimalNat.
From Stdlib Require Import ZArith.
Import ListNotations.
Local Open Scope string_scope.
Local Open Scope list_scope.

(** ** JavaScript values used by the component *)

Module JS.

(** [String.prototype.endsWith]: the last [length suffix] characters
    of [s] are [suffix]. *)
Definition endsWith (s suffix : string) : bool :=
  Nat.leb (String.length suffix) (String.length s) &&
  String.eqb
    (substring (String.length s - String.length suffix)
               (String.length suffix) s)
    suffix.

(** Truthiness of a [string | null | undefined]: only a non-empty
    string is truthy. *)
Definition truthy (v : option string) : bool :=
  match v with
  | Some s => negb (String.eqb s "")
  | None => false
  end.

(** Interpolation of a non-negative integer in a template literal. *)
Definition string_of_nat (n : nat) : string :=
  NilZero.string_of_uint (Nat.to_uint n).

(** What [catch (err)] can receive: an [Error] instance, whose
    [message] is kept, or any other thrown value. *)
Inductive Thrown : Type :=
| ErrorObj (message : string)
| OtherThrown.

(** A field of a parsed JSON object, as far as the handlers observe
    it.  A string is kept as it is.  Every other value ([null], a
    boolean, a number, an array, an object) is kept as the two things
    the code observes of it: its truthiness, tested by [||], and the
    outcome of converting it to a string, done by [new Error(v)]: the
    string image (["42"] for [42], [""] for [[]], ["[object Object]"]
    for a plain object) or the [TypeError] of an object that cannot be
    converted. *)
Inductive Json : Type :=
| JAbsent
| JStr (s : string)
| JOther (truthy : bool) (image : Thrown + string).

Definition is_truthy (v : Json) : bool :=
  match v with
  | JAbsent => false
  | JStr s => negb (String.eqb s "")
  | JOther t _ => t
  end.

(** [a || b] *)
Definition or_json (a b : Json) : Json :=
  if is_truthy a then a else b.

(** The [message] of [new Error(v)], or what the conversion of [v]
    throws; [new Error(undefined)] has the empty message. *)
Definition error_message_of (v : Json) : Thrown + string :=
  match v with
  | JAbsent => inr ""
  | JStr s => inr s
  | JOther _ image => image
  end.

End JS.
Import JS.

(** ** Data model ([types/index.ts] and the browser types) *)

(** A scalar cell of a preview row. *)
Inductive Scalar : Type :=
| SNull
| SNum (n : Z)
| SStr (s : string).

Record Stats : Type := mkStats {
  total_records : Z;
  filename : string;
  columns : list string;
  preview : list (list (string * Scalar))
}.

(** The parsed upload payload.  The interface [ProcessingResult]
    declares every field but [error] as required, but the component
    obtains the value with the unchecked assertion
    [data as ProcessingResult] and reads [data.error] and [data.message]
    on failure payloads, so a field the JSON object lacks is [None]
    ([undefined] in JavaScript).  The field [error] is [error_field]
    here, [error] being the state cell of the component.  The failure
    path reads [data.error] and [data.message] from payloads of any
    shape, so these two fields hold arbitrary JSON values.  A body that
    is not an object reads as one without fields, except [null], whose
    first property read throws (see [Response]). *)
Record ProcessingResult : Type := mkResult {
  success : option bool;
  message : Json;
  stats : option Stats;
  download_url : option string;
  error_field : Json
}.

Record HealthCheckResponse : Type := mkHealth {
  health_status : option string;
  health_message : option string;
  backend : option string;
  version : option string
}.

(** Binary content, as bytes. *)
Definition Blob : Type := list byte.

(** The browser's [File]. *)
Record File : Type := mkFile {
  name : string;
  size : nat;
  content : Blob
}.

(** A [Response]: the HTTP status and what reading the body gives,
    either the decoded value or the exception of the reader
    ([response.json()] rejects with a [SyntaxError] on an empty body or
    on a body that is not JSON).  A JSON body that is [null] is decoded
    without error, but the first property read on it throws a
    [TypeError] inside the same [try]; it is represented by that
    exception. *)
Record Response (A : Type) : Type := mkResponse {
  status : nat;
  body : Thrown + A
}.
Arguments mkResponse {A} _ _.
Arguments status {A} _.
Arguments body {A} _.

(** [Response.ok]: the status is in the range 200 to 299. *)
Definition ok {A : Type} (r : Response A) : bool :=
  Nat.leb 200 (status r) && Nat.leb (status r) 299.

Arguments ok : simpl never.

(** What [await fetch(...)] gives: a rejection (network failure) or a
    response. *)
Definition Fetched (A : Type) : Type := (Thrown + Response A)%type.

(** The answers of the outside world to one handler run. *)
Record World : Type := mkWorld {
  health : Fetched HealthCheckResponse;
  upload : Fetched ProcessingResult;
  download : Fetched Blob
}.

(** ** Component state *)

Record UploadSession : Type := mkSession {
  file : option File;
  uploading : bool;
  result : option ProcessingResult;
  error : option string;
  dragActive : bool
}.

(** The [useState] initial values. *)
Definition initial : UploadSession :=
  mkSession None false None None false.

Definition API_BASE_URL : string :=
  "https://project2backenddeploy-production.up.railway.app".

(** ** Handlers as logged computations *)

Inductive Request : Type :=
| GetHealth                       (* GET  API_BASE_URL/api/health *)
| PostUpload (f : File)           (* POST API_BASE_URL/api/upload, field "file" *)
| GetArtifact (url : string).     (* GET  result.download_url *)

(** One observable action of a handler: a write to a state cell, a
    network request, or a DOM operation of the download. *)
Inductive Event : Type :=
| SetFile (f : option File)
| SetUploading (b : bool)
| SetResult (r : option ProcessingResult)
| SetError (e : option string)
| SetDragActive (b : bool)
| Fetch (req : Request)
| CreateObjectURL (b : Blob)
| AppendAnchor (download_name : string)
| ClickAnchor
| RevokeObjectURL
| RemoveAnchor.

(** A handler run: the actions performed, in order, and how the run
    ended (a thrown value or a returned one). *)
Definition Handler (A : Type) : Type := (list Event * (Thrown + A))%type.

Module HandlerMonad.

Definition ret {A : Type} (a : A) : Handler A := ([], inr a).

Definition bind {A B : Type} (c : Handler A) (k : A -> Handler B)
  : Handler B :=
  match c with
  | (tr, inl e) => (tr, inl e)
  | (tr, inr a) => let (tr', r) := k a in (tr ++ tr', r)
  end.

Definition emit (ev : Event) : Handler unit := ([ev], inr tt).

Definition throw {A : Type} (e : Thrown) : Handler A := ([], inl e).

(** [try { c } catch (err) { h err }] *)
Definition try_catch {A : Type} (c : Handler A) (h : Thrown -> Handler A)
  : Handler A :=
  match c with
  | (tr, inl e) => let (tr', r) := h e in (tr ++ tr', r)
  | (tr, inr a) => (tr, inr a)
  end.

(** [try { c } finally { f }]: [f] runs on every exit of [c]; the
    outcome is that of [c] unless [f] itself throws. *)
Definition try_finally {A : Type} (c : Handler A) (f : Handler unit)
  : Handler A :=
  let (tr, r) := c in
  match f with
  | (tr', inl e) => (tr ++ tr', inl e)
  | (tr', inr _) => (tr ++ tr', r)
  end.

Notation "x <- c ;; k" := (bind c (fun x => k))
  (at level 61, c at next level, right associativity).
Notation "c ;; k" := (bind c (fun _ => k))
  (at level 61, right associativity).

End HandlerMonad.
Import HandlerMonad.

Definition setFile (f : option File) : Handler unit := emit (SetFile f).
Definition setUploading (b : bool) : Handler unit := emit (SetUploading b).
Definition setResult (r : option ProcessingResult) : Handler unit :=
  emit (SetResult r).
Definition setError (e : option string) : Handler unit := emit (SetError e).
Definition setDragActive (b : bool) : Handler unit := emit (SetDragActive b).

(** [await fetch(req)], answered by the outside world. *)
Definition fetch {A : Type} (req : Request) (answer : Fetched A)
  : Handler (Response A) :=
  ([Fetch req], answer).

(** [await response.json()] and [await response.blob()]. *)
Definition read_body {A : Type} (r : Response A) : Handler A :=
  ([], body r).

(** [o.field] where [o] may be [undefined]: a [TypeError] in that case. *)
Definition member {A : Type} (o : option A) : Handler A :=
  match o with
  | Some a => ret a
  | None => throw (ErrorObj "Cannot read properties of undefined")
  end.

(** [data.status === 'healthy'] *)
Definition status_is_healthy (data : HealthCheckResponse) : bool :=
  match health_status data with
  | Some st => String.eqb st "healthy"
  | None => false
  end.

(** ** The handlers of [FileUpload] *)

Definition testBackendConnection (w : World) : Handler bool :=
  try_catch
    (response <- fetch GetHealth (health w) ;;
     data <- read_body response ;;
     ret (status_is_healthy data))
    (fun _ => ret false).

Definition handleDrag (type : string) : Handler unit :=
  if String.eqb type "dragenter" || String.eqb type "dragover" then
    setDragActive true
  else if String.eqb type "dragleave" then
    setDragActive false
  else ret tt.

(** The argument is a [File], so the null test of
    [selectedFile && selectedFile.name.endsWith('.xlsx')] always passes. *)
Definition handleFileSelect (selectedFile : File) : Handler unit :=
  if endsWith (name selectedFile) ".xlsx" then
    setFile (Some selectedFile) ;;
    setError None ;;
    setResult None
  else
    setError (Some "Please select a valid .xlsx file").

Definition handleDrop (files : list File) : Handler unit :=
  setDragActive false ;;
  match files with
  | f :: _ => handleFileSelect f
  | [] => ret tt
  end.

Definition handleFileInputChange (files : list File) : Handler unit :=
  match files with
  | f :: _ => handleFileSelect f
  | [] => ret tt
  end.

(** [processedResult.download_url = `${API_BASE_URL}${...}`] *)
Definition with_download_url (r : ProcessingResult) (u : string)
  : ProcessingResult :=
  mkResult (success r) (message r) (stats r) (Some u) (error_field r).

Definition qualify (data : ProcessingResult) : ProcessingResult :=
  match download_url data with
  | Some path =>
      if String.eqb path "" then data
      else with_download_url data (API_BASE_URL ++ path)
  | None => data
  end.

(** [data.error || data.message ||
     `Upload failed with status ${response.status}`] *)
Definition upload_error_value (data : ProcessingResult) (code : nat)
  : Json :=
  or_json (or_json (error_field data) (message data))
          (JStr ("Upload failed with status " ++ string_of_nat code)).

(** [new Error(v)]: the error object, unless converting [v] throws. *)
Definition new_Error (v : Json) : Handler Thrown :=
  match error_message_of v with
  | inr m => ret (ErrorObj m)
  | inl e => throw e
  end.

(** [err instanceof Error ? err.message : '...'] *)
Definition catch_message (err : Thrown) : string :=
  match err with
  | ErrorObj m => m
  | OtherThrown => "An error occurred while uploading the file"
  end.

(** What the [catch] block shows when a failure payload was read:
    the message of the error thrown at [throw new Error(errorMessage)]. *)
Definition upload_failed_message (data : ProcessingResult) (code : nat)
  : string :=
  catch_message
    match error_message_of (upload_error_value data code) with
    | inr m => ErrorObj m
    | inl e => e
    end.

Definition connect_message : string :=
  "Cannot connect to backend server. Make sure Flask is running on "
  ++ API_BASE_URL.

Definition handleUpload (s : UploadSession) (w : World) : Handler unit :=
  match file s with
  | None => setError (Some "Please select a file first")
  | Some f =>
    isBackendHealthy <- testBackendConnection w ;;
    if negb isBackendHealthy then
      setError (Some connect_message)
    else
      setUploading true ;;
      setError None ;;
      try_finally
        (try_catch
           (response <- fetch (PostUpload f) (upload w) ;;
            data <- read_body response ;;
            if negb (ok response) then
              err <- new_Error
                       (upload_error_value data (status response)) ;;
              throw err
            else
              setResult (Some (qualify data)))
           (fun err => setError (Some (catch_message err))))
        (setUploading false)
  end.

Definition handleDownload (s : UploadSession) (w : World) : Handler unit :=
  match result s with
  | None => ret tt
  | Some r =>
    match download_url r with
    | None => ret tt
    | Some url =>
      if String.eqb url "" then ret tt
      else
        try_catch
          (response <- fetch (GetArtifact url) (download w) ;;
           if negb (ok response) then throw (ErrorObj "Download failed")
           else
             blob <- read_body response ;;
             emit (CreateObjectURL blob) ;;
             st <- member (stats r) ;;
             emit (AppendAnchor (filename st)) ;;
             emit ClickAnchor ;;
             emit RevokeObjectURL ;;
             emit RemoveAnchor)
          (fun _ => setError (Some "Failed to download file"))
    end
  end.

Definition handleReset : Handler unit :=
  setFile None ;;
  setResult None ;;
  setError None.

(** The mount effect: one probe whose outcome is only logged. *)
Definition mountEffect (w : World) : Handler unit :=
  _ <- testBackendConnection w ;; ret tt.

(** ** Effect of a handler run on the state *)

Definition apply_event (s : UploadSession) (ev : Event) : UploadSession :=
  match ev with
  | SetFile f =>
      mkSession f (uploading s) (result s) (error s) (dragActive s)
  | SetUploading b =>
      mkSession (file s) b (result s) (error s) (dragActive s)
  | SetResult r =>
      mkSession (file s) (uploading s) r (error s) (dragActive s)
  | SetError e =>
      mkSession (file s) (uploading s) (result s) e (dragActive s)
  | SetDragActive b =>
      mkSession (file s) (uploading s) (result s) (error s) b
  | _ => s
  end.

Definition trace {A : Type} (h : Handler A) : list Event := fst h.

Definition exec {A : Type} (s : UploadSession) (h : Handler A)
  : UploadSession :=
  fold_left apply_event (trace h) s.


Definition is_clear (ev : Event) : bool :=
  match ev with SetUploading false => true | _ => false end.

Definition is_raise (ev : Event) : bool :=
  match ev with SetUploading true => true | _ => false end.

Definition is_upload_call (ev : Event) : bool :=
  match ev with Fetch (PostUpload _) => true | _ => false end.

Definition is_fetch (ev : Event) : bool :=
  match ev with Fetch _ => true | _ => false end.

(** ** The operations of the orchestrator *)

Inductive Op : Type :=
| selectFile (candidate : File)
| requestUpload (w : World)
| requestDownload (w : World)
| reset
| probeHealth (w : World).

Definition handler_of (op : Op) (s : UploadSession) : Handler unit :=
  match op with
  | selectFile candidate => handleFileSelect candidate
  | requestUpload w => handleUpload s w
  | requestDownload w => handleDownload s w
  | reset => handleReset
  | probeHealth w => mountEffect w
  end.

Definition step (s : UploadSession) (op : Op) : UploadSession :=
  exec s (handler_of op s).

Definition run (ops : list Op) (s : UploadSession) : UploadSession :=
  fold_left step ops s.

Definition reachable (s : UploadSession) : Prop :=
  exists ops, s = run ops initial.

(** What holds between operations: the busy indicator is off, and a
    result is held only while a file is selected. *)
Definition settled (s : UploadSession) : Prop :=
  uploading s = false /\ (result s <> None -> file s <> None).

(** The probe passes: the health request was answered, the body
    parsed, and its [status] is the string "healthy". *)
Definition probe_passes (w : World) : Prop :=
  exists resp data,
    health w = inr resp /\ body resp = inr data /\
    health_status data = Some "healthy".

(** ** Phases

    The component has no phase variable.  The render function reads the
    phase off the state cells: the spinner is shown while [uploading],
    the results card ("Processing Complete") while [result] is non-null,
    the error banner while [error] is a non-empty string, and none of
    the three otherwise.  Nothing makes the three exclusive. *)

Inductive Phase : Type := Idle | Uploading | Succeeded | Failed.

Definition is_some {A : Type} (o : option A) : bool :=
  match o with Some _ => true | None => false end.

Definition in_phase (p : Phase) (s : UploadSession) : bool :=
  match p with
  | Uploading => uploading s
  | Succeeded => is_some (result s)
  | Failed => truthy (error s)
  | Idle =>
      negb (uploading s) && negb (is_some (result s))
      && negb (truthy (error s))
  end.

(** What the JSX shows, as far as it depends on the state. *)
Record View : Type := mkView {
  fileBadge : option File;                  (* {file && ...} *)
  errorBanner : option string;              (* {error && ...} *)
  clearButton : option bool;                (* {!result && ...}: disabled *)
  processButton : option (bool * bool);     (* disabled, spinner *)
  resultsCard : option ProcessingResult;    (* {result && ...} *)
  instructions : bool                       (* {!result && ...} *)
}.

Definition render (s : UploadSession) : View :=
  mkView
    (file s)
    (if truthy (error s) then error s else None)
    (if is_some (result s) then None else Some (uploading s))
    (if is_some (result s) then None
     else Some (negb (is_some (file s)) || uploading s, uploading s))
    (result s)
    (negb (is_some (result s))).

(** ** Sample data

    The payloads and answers used in the examples below. *)

Definition sheet : File := mkFile "report.xlsx" 4 [x50; x4b; x03; x04].

Definition notes : File := mkFile "notes.csv" 2 [x6e; x6f].

Definition healthy_answer : Fetched HealthCheckResponse :=
  inr (mkResponse 200
         (inr (mkHealth (Some "healthy") (Some "up") (Some "flask")
                        (Some "1.0")))).

Definition degraded_answer : Fetched HealthCheckResponse :=
  inr (mkResponse 200
         (inr (mkHealth (Some "degraded") (Some "db down") (Some "flask")
                        (Some "1.0")))).

Definition example_stats : Stats :=
  mkStats 5 "out.csv" ["A"; "B"] [[("A", SNum 1); ("B", SNum 2)]].

(** [{success:true, stats:{...}, download_url:"/files/out.csv"}] *)
Definition example_payload : ProcessingResult :=
  mkResult (Some true) JAbsent (Some example_stats)
           (Some "/files/out.csv") JAbsent.

(** [{error:"bad format"}] *)
Definition bad_format_payload : ProcessingResult :=
  mkResult None JAbsent None None (JStr "bad format").

(** [{}] *)
Definition empty_object : ProcessingResult :=
  mkResult None JAbsent None None JAbsent.

(** [{error:42, message:"real reason"}] *)
Definition numeric_error_payload : ProcessingResult :=
  mkResult None (JStr "real reason") None None (JOther true (inr "42")).

(** [{error:[]}]: an empty array is truthy and its string form is
    empty. *)
Definition empty_array_error_payload : ProcessingResult :=
  mkResult None JAbsent None None (JOther true (inr "")).

(** What [response.json()] throws on a body of zero bytes. *)
Definition empty_body_error : Thrown :=
  ErrorObj "Unexpected end of JSON input".

Definition not_found : Fetched Blob := inr (mkResponse 404 (inr [])).

Definition world_failure (code : nat) (payload : ProcessingResult)
  : World :=
  mkWorld healthy_answer (inr (mkResponse code (inr payload))) not_found.

(** A healthy backend that processes the upload and then fails to
    serve the artifact. *)
Definition world_success : World :=
  mkWorld healthy_answer (inr (mkResponse 200 (inr example_payload)))
          not_found.

Definition world_bad_format : World :=
  mkWorld healthy_answer (inr (mkResponse 400 (inr bad_format_payload)))
          not_found.

Definition world_empty_object : World :=
  mkWorld healthy_answer (inr (mkResponse 500 (inr empty_object)))
          not_found.

Definition world_empty_body (code : nat) : World :=
  mkWorld healthy_answer (inr (mkResponse code (inl empty_body_error)))
          not_found.

Definition world_degraded : World :=
  mkWorld degraded_answer (inr (mkResponse 200 (inr example_payload)))
          not_found.

(** The session once [sheet] has been selected, then processed, then
    after the download of the artifact failed. *)
Definition armed : UploadSession := step initial (selectFile sheet).

Definition processed : UploadSession :=
  step armed (requestUpload world_success).

Definition download_failed : UploadSession :=
  step processed (requestDownload world_success).

(** The session at the suspension point of the upload request: the
    writes of [handleUpload] up to and including [fetch(.../api/upload)]
    have been performed. *)
Definition mid_upload : UploadSession :=
  fold_left apply_event
            (firstn 4 (trace (handleUpload armed world_success))) armed.

(** ** Counting actions *)

Definition is_health_call (ev : Event) : bool :=
  match ev with Fetch GetHealth => true | _ => false end.

Definition is_artifact_call (ev : Event) : bool :=
  match ev with Fetch (GetArtifact _) => true | _ => false end.

Definition is_create (ev : Event) : bool :=
  match ev with CreateObjectURL _ => true | _ => false end.

Definition is_revoke (ev : Event) : bool :=
  match ev with RevokeObjectURL => true | _ => false end.

Definition count (p : Event -> bool) (tr : list Event) : nat :=
  length (filter p tr).

(** ** More sample data *)

Definition ledger : File := mkFile "ledger.xlsx" 2 [x50; x4b].

(** A success payload without [download_url]. *)
Definition payload_without_locator : ProcessingResult :=
  mkResult (Some true) (JStr "done") (Some example_stats) None JAbsent.

(** A success payload without [stats]. *)
Definition payload_without_stats : ProcessingResult :=
  mkResult (Some true) JAbsent None (Some "/files/out.csv") JAbsent.

Definition served : Fetched Blob :=
  inr (mkResponse 200 (inr [x41; x2c; x42])).

Definition world_served : World :=
  mkWorld healthy_answer (inr (mkResponse 200 (inr example_payload)))
          served.

Definition world_no_locator : World :=
  mkWorld healthy_answer
          (inr (mkResponse 200 (inr payload_without_locator))) served.

Definition world_no_stats : World :=
  mkWorld healthy_answer
          (inr (mkResponse 200 (inr payload_without_stats))) served.

(** The probe is answered, then the network drops. *)
Definition world_offline : World :=
  mkWorld healthy_answer (inl (ErrorObj "Failed to fetch"))
          (inl (ErrorObj "Failed to fetch")).

(** * Properties *)

(** ** Strings *)

Section StringFacts.

Lemma length_append (s t : string) :
  String.length (s ++ t)%string = String.length s + String.length t.
Proof.
  induction s as [|c s IH]; simpl; [reflexivity | now rewrite IH].
Qed.

Lemma substring_all (s : string) : substring 0 (String.length s) s = s.
Proof.
  induction s as [|c s IH]; simpl; [reflexivity | now rewrite IH].
Qed.

Lemma substring_after (p t : string) :
  substring (String.length p) (String.length t) (p ++ t)%string = t.
Proof.
  induction p as [|c p IH]; simpl; [apply substring_all | exact IH].
Qed.

Lemma substring_split (s : string) :
  forall n, n <= String.length s ->
    (substring 0 n s ++ substring n (String.length s - n) s)%string = s.
Proof.
  induction s as [|c s IH]; intros [|n] Hn; simpl in *.
  - reflexivity.
  - lia.
  - now rewrite substring_all.
  - rewrite IH by lia. reflexivity.
Qed.

(** [endsWith] holds exactly of the strings that are some prefix
    followed by the suffix. *)
Lemma endsWith_spec (s suffix : string) :
  endsWith s suffix = true <-> exists p, s = (p ++ suffix)%string.
Proof.
  unfold endsWith. rewrite andb_true_iff, Nat.leb_le, String.eqb_eq.
  split.
  - intros [Hlen Hsub].
    exists (substring 0 (String.length s - String.length suffix) s).
    assert (Hle : String.length s - String.length suffix <= String.length s)
      by lia.
    pose proof (substring_split s _ Hle) as Hsplit.
    replace (String.length s - (String.length s - String.length suffix))
      with (String.length suffix) in Hsplit by lia.
    rewrite Hsub in Hsplit. now symmetry.
  - intros [p ->]. rewrite length_append. split; [lia|].
    replace (String.length p + String.length suffix - String.length suffix)
      with (String.length p) by lia.
    apply substring_after.
Qed.

Lemma truthy_Some (a : option string) :
  truthy a = true -> exists s, a = Some s /\ s <> "".
Proof.
  destruct a as [s|]; simpl; [|discriminate].
  intros H. exists s. split; [reflexivity|].
  now apply String.eqb_neq, negb_true_iff.
Qed.

End StringFacts.

(** ** Selecting a file *)

(** C1 (as amended).  A candidate whose name does not end in ".xlsx"
    only sets the fixed validation message, which puts the session in
    the Failed phase; the selected file, the result, the busy indicator
    and the drag flag keep their values, so a file selected before stays
    armed. *)
Theorem C1_rejected_selection_only_sets_error
  (s : UploadSession) (candidate : File)
  (Hname : endsWith (name candidate) ".xlsx" = false) :
  let s' := step s (selectFile candidate) in
  error s' = Some "Please select a valid .xlsx file" /\
  in_phase Failed s' = true /\
  file s' = file s /\
  result s' = result s /\
  uploading s' = uploading s /\
  dragActive s' = dragActive s.
Proof.
  unfold step, exec, handler_of, handleFileSelect. rewrite Hname.
  cbn. repeat split.
Qed.

Lemma C1_rejected_selection_witness :
  endsWith (name notes) ".xlsx" = false /\
  error (step armed (selectFile notes))
    = Some "Please select a valid .xlsx file" /\
  file (step armed (selectFile notes)) = Some sheet.
Proof.
  split; [reflexivity|].
  destruct (C1_rejected_selection_only_sets_error armed notes eq_refl)
    as (He & _ & Hf & _).
  split; [exact He | exact Hf].
Defined.

(** C1 (as stated) fails: after [sheet] was selected, rejecting
    [notes] leaves [sheet] selected. *)
Lemma C1_counterexample :
  ~ (forall (s : UploadSession) (candidate : File),
        endsWith (name candidate) ".xlsx" = false ->
        let s' := step s (selectFile candidate) in
        in_phase Failed s' = true /\
        error s' = Some "Please select a valid .xlsx file" /\
        file s' = None).
Proof.
  intros H. specialize (H armed notes eq_refl).
  cbv zeta in H. destruct H as (_ & _ & Hfile).
  vm_compute in Hfile. discriminate Hfile.
Qed.

(** C9.  A candidate whose name ends in ".xlsx" becomes the selected
    file and the result and the error message are cleared, whatever
    they were: neither the results card nor the error banner is shown
    and the instructions are back. *)
Theorem C9_accepted_selection_clears_result_and_error
  (s : UploadSession) (candidate : File)
  (Hname : endsWith (name candidate) ".xlsx" = true) :
  let s' := step s (selectFile candidate) in
  file s' = Some candidate /\
  result s' = None /\
  error s' = None /\
  uploading s' = uploading s /\
  in_phase Succeeded s' = false /\
  in_phase Failed s' = false /\
  resultsCard (render s') = None /\
  errorBanner (render s') = None /\
  instructions (render s') = true.
Proof.
  unfold step, exec, handler_of, handleFileSelect. rewrite Hname.
  cbn. repeat split.
Qed.

Lemma C9_accepted_selection_witness :
  endsWith (name sheet) ".xlsx" = true /\
  result download_failed <> None /\ error download_failed <> None /\
  file (step download_failed (selectFile sheet)) = Some sheet /\
  result (step download_failed (selectFile sheet)) = None /\
  error (step download_failed (selectFile sheet)) = None.
Proof.
  split; [reflexivity|].
  split; [vm_compute; discriminate|].
  split; [vm_compute; discriminate|].
  destruct (C9_accepted_selection_clears_result_and_error
              download_failed sheet eq_refl)
    as (Hf & Hr & He & _).
  split; [exact Hf | split; [exact Hr | exact He]].
Defined.

(** The picker and the drop zone pass the first file on to
    [handleFileSelect]; the drop zone also ends the drag highlight. *)
Lemma handleFileInputChange_selects
  (s : UploadSession) (f : File) (rest : list File) :
  exec s (handleFileInputChange (f :: rest)) = step s (selectFile f).
Proof. reflexivity. Qed.

Lemma handleDrop_selects
  (s : UploadSession) (f : File) (rest : list File) :
  exec s (handleDrop (f :: rest))
  = step (apply_event s (SetDragActive false)) (selectFile f).
Proof.
  unfold step, exec, handler_of, handleDrop, handleFileSelect.
  destruct (endsWith (name f) ".xlsx"); reflexivity.
Qed.

Lemma handleDrag_highlight (s : UploadSession) :
  dragActive (exec s (handleDrag "dragover")) = true /\
  dragActive (exec s (handleDrag "dragleave")) = false /\
  exec s (handleDrag "drop") = s.
Proof. repeat split. Qed.

(** ** Phases and what is rendered *)

Lemma render_phases (s : UploadSession) :
  (resultsCard (render s) <> None <-> in_phase Succeeded s = true) /\
  (errorBanner (render s) <> None <-> in_phase Failed s = true) /\
  (in_phase Succeeded s = false ->
   processButton (render s)
   = Some (negb (is_some (file s)) || in_phase Uploading s,
           in_phase Uploading s)).
Proof.
  unfold render. cbn.
  split; [|split].
  - destruct (result s); cbn; split; congruence.
  - destruct (truthy (error s)) eqn:Ht.
    + destruct (truthy_Some _ Ht) as (m & -> & _). split; congruence.
    + split; congruence.
  - now intros ->.
Qed.

(** ** Reset *)

(** C5 (as amended).  [reset] clears the selected file, the result and
    the error message and leaves the busy indicator as it is; the
    session is Idle afterwards exactly when no upload is in flight. *)
Theorem C5_reset_clears_all_but_busy (s : UploadSession) :
  let s' := step s reset in
  file s' = None /\
  result s' = None /\
  error s' = None /\
  uploading s' = uploading s /\
  in_phase Idle s' = negb (uploading s) /\
  in_phase Uploading s' = uploading s.
Proof.
  unfold step, exec, handler_of, handleReset. cbn.
  repeat split. now rewrite !andb_true_r.
Qed.

(** C5 (as stated) fails in the Uploading phase: a reset that arrives
    while the upload request is pending leaves the busy indicator set. *)
Lemma C5_counterexample :
  ~ (forall s : UploadSession,
        let s' := step s reset in
        in_phase Idle s' = true /\
        file s' = None /\ result s' = None /\ error s' = None).
Proof.
  intros H. specialize (H mid_upload). cbv zeta in H.
  destruct H as (Hidle & _). vm_compute in Hidle. discriminate Hidle.
Qed.

(** While the spinner is shown the Clear button is disabled. *)
Lemma clear_disabled_while_uploading (s : UploadSession) :
  result s = None -> clearButton (render s) = Some (uploading s).
Proof.
  intros Hr. unfold render. cbn. now rewrite Hr.
Qed.

Lemma mid_upload_is_uploading :
  in_phase Uploading mid_upload = true /\
  file mid_upload = Some sheet /\
  clearButton (render mid_upload) = Some true.
Proof. repeat split. Qed.

(** ** The health probe *)

Section Probe.

Variable w : World.

(** The probe issues exactly one request and never throws. *)
Lemma testBackendConnection_total :
  exists b, testBackendConnection w = ([Fetch GetHealth], inr b).
Proof.
  unfold testBackendConnection, fetch, read_body.
  destruct (health w) as [e|resp]; cbn; [now exists false|].
  destruct (body resp) as [e|data]; cbn; eauto.
Qed.

Lemma testBackendConnection_passes :
  probe_passes w ->
  testBackendConnection w = ([Fetch GetHealth], inr true).
Proof.
  intros (resp & data & Hh & Hb & Hs).
  unfold testBackendConnection, fetch, read_body, status_is_healthy.
  rewrite Hh. cbn. rewrite Hb. cbn. rewrite Hs. reflexivity.
Qed.

Lemma testBackendConnection_fails :
  ~ probe_passes w ->
  testBackendConnection w = ([Fetch GetHealth], inr false).
Proof.
  intros Hno.
  unfold testBackendConnection, fetch, read_body, status_is_healthy.
  destruct (health w) as [e|resp] eqn:Hh; cbn; [reflexivity|].
  destruct (body resp) as [e|data] eqn:Hb; cbn; [reflexivity|].
  destruct (health_status data) as [st|] eqn:Hs; [|reflexivity].
  destruct (String.eqb_spec st "healthy") as [->|Hne]; [|reflexivity].
  exfalso. apply Hno. now exists resp, data.
Qed.

End Probe.

(** ** Upload *)

Section Upload.

Variables (s : UploadSession) (w : World) (f : File).
Hypothesis Hfile : file s = Some f.

(** Past the probe the handler performs six actions, the fifth of
    which records the outcome of the request, and returns normally. *)
Lemma handleUpload_attempted :
  probe_passes w ->
  handleUpload s w =
    ([Fetch GetHealth; SetUploading true; SetError None;
      Fetch (PostUpload f);
      match upload w with
      | inl e => SetError (Some (catch_message e))
      | inr resp =>
          match body resp with
          | inl e => SetError (Some (catch_message e))
          | inr data =>
              if ok resp then SetResult (Some (qualify data))
              else SetError
                     (Some (upload_failed_message data (status resp)))
          end
      end;
      SetUploading false], inr tt).
Proof.
  intros Hp. unfold handleUpload. rewrite Hfile.
  rewrite (testBackendConnection_passes w Hp). cbn.
  unfold fetch, read_body.
  destruct (upload w) as [e|resp]; cbn; [reflexivity|].
  destruct (body resp) as [e|data]; cbn; [reflexivity|].
  destruct (ok resp); [reflexivity|].
  unfold upload_failed_message, new_Error. cbn.
  destruct (error_message_of (upload_error_value data (status resp)));
    reflexivity.
Qed.

(** After a failed probe the handler only reports the connectivity
    error. *)
Lemma handleUpload_blocked :
  ~ probe_passes w ->
  handleUpload s w =
    ([Fetch GetHealth; SetError (Some connect_message)], inr tt).
Proof.
  intros Hp. unfold handleUpload. rewrite Hfile.
  rewrite (testBackendConnection_fails w Hp). reflexivity.
Qed.

End Upload.

Lemma handleUpload_no_file (s : UploadSession) (w : World) :
  file s = None ->
  handleUpload s w = ([SetError (Some "Please select a file first")], inr tt).
Proof. intros H. unfold handleUpload. now rewrite H. Qed.

Lemma world_success_passes : probe_passes world_success.
Proof. eexists _, _. repeat split. Qed.

Lemma world_empty_body_passes (code : nat) :
  probe_passes (world_empty_body code).
Proof. eexists _, _. repeat split. Qed.

Lemma world_bad_format_passes : probe_passes world_bad_format.
Proof. eexists _, _. repeat split. Qed.

Lemma world_degraded_fails : ~ probe_passes world_degraded.
Proof.
  intros (resp & data & Hh & Hb & Hs). cbn in Hh.
  injection Hh as <-. cbn in Hb. injection Hb as <-. discriminate Hs.
Qed.

Lemma upload_error_value_truthy (data : ProcessingResult) (code : nat) :
  is_truthy (upload_error_value data code) = true.
Proof.
  unfold upload_error_value, or_json.
  destruct (is_truthy (error_field data)) eqn:He; cbn.
  - now rewrite He.
  - destruct (is_truthy (message data)) eqn:Hm; cbn; [now rewrite Hm|].
    reflexivity.
Qed.

(** C3 (as amended).  When the upload is answered with a status outside
    200..299 and the body parses as a JSON object, the value shown is
    chosen by a three-level fallback: the payload's [error] when it is
    truthy, else its [message] when it is truthy, else the string
    "Upload failed with status <code>".  The error message is the
    string form of the chosen value: the value itself when it is a
    string, in which case the session ends Failed; its image when it is
    another JSON value, in which case the session ends Failed exactly
    when the image is not empty; and the message of the exception when
    the value cannot be converted.  The result is untouched and the busy
    indicator is cleared.  When the body does not parse the message is
    the one of the parse exception, whatever the status. *)
Theorem C3_failed_upload_message
  (s : UploadSession) (w : World) (f : File)
  (resp : Response ProcessingResult)
  (Hfile : file s = Some f)
  (Hprobe : probe_passes w)
  (Hresp : upload w = inr resp)
  (Hok : ok resp = false) :
  let s' := step s (requestUpload w) in
  result s' = result s /\
  uploading s' = false /\
  (forall data, body resp = inr data ->
     exists chosen : Json,
       (is_truthy (error_field data) = true ->
        chosen = error_field data) /\
       (is_truthy (error_field data) = false ->
        is_truthy (message data) = true -> chosen = message data) /\
       (is_truthy (error_field data) = false ->
        is_truthy (message data) = false ->
        chosen = JStr ("Upload failed with status "
                       ++ string_of_nat (status resp))%string) /\
       (forall m, chosen = JStr m ->
          error s' = Some m /\ in_phase Failed s' = true) /\
       (forall t m, chosen = JOther t (inr m) ->
          error s' = Some m /\
          in_phase Failed s' = negb (String.eqb m "")) /\
       (forall t e, chosen = JOther t (inl e) ->
          error s' = Some (catch_message e))) /\
  (forall e, body resp = inl e -> error s' = Some (catch_message e)).
Proof.
  unfold step, exec, handler_of.
  rewrite (handleUpload_attempted s w f Hfile Hprobe), Hresp.
  split; [|split; [|split]].
  - destruct (body resp); [|rewrite Hok]; reflexivity.
  - destruct (body resp); [|rewrite Hok]; reflexivity.
  - intros data Hbody. rewrite Hbody, Hok. cbn.
    exists (upload_error_value data (status resp)).
    pose proof (upload_error_value_truthy data (status resp)) as Htr.
    unfold upload_failed_message.
    split; [|split; [|split; [|split; [|split]]]].
    + intros He. unfold upload_error_value, or_json. rewrite He. cbn.
      now rewrite He.
    + intros He Hm. unfold upload_error_value, or_json.
      rewrite He. cbn. now rewrite Hm.
    + intros He Hm. unfold upload_error_value, or_json.
      rewrite He. cbn. now rewrite Hm.
    + intros m Hc. rewrite Hc in *. cbn in *. now rewrite Htr.
    + intros t m Hc. rewrite Hc. cbn. split; reflexivity.
    + intros t e Hc. rewrite Hc. reflexivity.
  - intros e Hbody. now rewrite Hbody.
Qed.

Lemma C3_failed_upload_witness :
  file armed = Some sheet /\
  probe_passes world_bad_format /\
  ok (mkResponse 400 (@inr Thrown _ bad_format_payload)) = false /\
  in_phase Failed (step armed (requestUpload world_bad_format)) = true /\
  error (step armed (requestUpload world_bad_format)) = Some "bad format".
Proof.
  split; [reflexivity|].
  split; [exact world_bad_format_passes|].
  split; [reflexivity|].
  destruct (C3_failed_upload_message armed world_bad_format sheet
              (mkResponse 400 (inr bad_format_payload))
              eq_refl world_bad_format_passes eq_refl eq_refl)
    as (_ & _ & Hparsed & _).
  destruct (Hparsed bad_format_payload eq_refl)
    as (chosen & Hfirst & _ & _ & Hstr & _).
  destruct (Hstr "bad format" (Hfirst eq_refl)) as (Herr & Hphase).
  split; [exact Hphase | exact Herr].
Defined.

(** C3 (as stated) fails: a 500 answer with an empty body cannot be
    parsed, and the message shown is the one of the parse exception, not
    one derived from the status. *)
Lemma C3_counterexample :
  ~ (forall (s : UploadSession) (w : World) (f : File)
            (resp : Response ProcessingResult),
        file s = Some f -> probe_passes w ->
        upload w = inr resp -> ok resp = false ->
        let s' := step s (requestUpload w) in
        in_phase Failed s' = true /\
        error s' =
          Some match body resp with
               | inr data => upload_failed_message data (status resp)
               | inl _ =>
                   ("Upload failed with status "
                    ++ string_of_nat (status resp))%string
               end).
Proof.
  intros H.
  specialize (H armed (world_empty_body 500) sheet
                (mkResponse 500 (inl empty_body_error))
                eq_refl (world_empty_body_passes 500) eq_refl eq_refl).
  cbv zeta in H. destruct H as (_ & Herr).
  vm_compute in Herr. discriminate Herr.
Qed.

Example upload_non_string_error_field :
  error (step armed (requestUpload (world_failure 400 numeric_error_payload)))
    = Some "42" /\
  error (step armed
           (requestUpload (world_failure 400 empty_array_error_payload)))
    = Some "" /\
  in_phase Failed
    (step armed
       (requestUpload (world_failure 400 empty_array_error_payload)))
    = false.
Proof. repeat split. Qed.

Example upload_500_empty_object :
  error (step armed (requestUpload world_empty_object))
    = Some "Upload failed with status 500".
Proof. reflexivity. Qed.

Example upload_empty_body_ignores_status :
  error (step armed (requestUpload (world_empty_body 500)))
    = Some "Unexpected end of JSON input" /\
  error (step armed (requestUpload (world_empty_body 503)))
    = Some "Unexpected end of JSON input".
Proof. split; reflexivity. Qed.




(** A run that returns before the upload never touches the busy
    indicator. *)
Lemma handleUpload_blocked_never_busy (s : UploadSession) (w : World) :
  file s = None \/ ~ probe_passes w ->
  filter is_raise (trace (handleUpload s w)) = [] /\
  filter is_clear (trace (handleUpload s w)) = [].
Proof.
  intros H. destruct (file s) as [f|] eqn:Hf.
  - destruct H as [H|H]; [discriminate|].
    rewrite (handleUpload_blocked s w f Hf H). now split.
  - rewrite (handleUpload_no_file s w Hf). now split.
Qed.

(** Every run of [handleUpload] is one of three shapes. *)
Lemma handleUpload_shapes (s : UploadSession) (w : World) :
  (exists e, trace (handleUpload s w) = [SetError e]) \/
  (exists e, trace (handleUpload s w) = [Fetch GetHealth; SetError e]) \/
  (exists f ev,
      ((exists r, ev = SetResult (Some r)) \/
       (exists e, ev = SetError (Some e))) /\
      trace (handleUpload s w) =
        [Fetch GetHealth; SetUploading true; SetError None;
         Fetch (PostUpload f); ev; SetUploading false]).
Proof.
  destruct (file s) as [f|] eqn:Hf.
  - destruct (testBackendConnection_total w) as ([|] & Hb).
    + right. right. exists f. unfold handleUpload. rewrite Hf, Hb. cbn.
      unfold fetch, read_body.
      destruct (upload w) as [e|resp]; cbn; [eexists; eauto|].
      destruct (body resp) as [e|data]; cbn; [eexists; eauto|].
      destruct (ok resp); cbn; [eexists; eauto|].
      unfold new_Error.
      destruct (error_message_of (upload_error_value data (status resp)));
        cbn; eexists; eauto.
    + right. left. unfold handleUpload. rewrite Hf, Hb. cbn. now eexists.
  - left. rewrite (handleUpload_no_file s w Hf). now eexists.
Qed.

(** C7.  When the probe does not pass (another status value, a network
    failure or a parse failure) [requestUpload] ends Failed, with the
    connectivity message whenever a file is selected, and the upload
    endpoint is not called; and in every run whatsoever a call of the
    upload endpoint comes after the probe. *)
Theorem C7_unhealthy_probe_blocks_upload
  (s : UploadSession) (w : World)
  (Hprobe : ~ probe_passes w) :
  let s' := step s (requestUpload w) in
  in_phase Failed s' = true /\
  (file s <> None -> error s' = Some connect_message) /\
  existsb is_upload_call (trace (handleUpload s w)) = false /\
  (forall s0 w0 pre f0 post,
      trace (handleUpload s0 w0) = pre ++ Fetch (PostUpload f0) :: post ->
      In (Fetch GetHealth) pre).
Proof.
  unfold step, exec, handler_of.
  split; [|split; [|split]].
  - destruct (file s) as [f|] eqn:Hf.
    + now rewrite (handleUpload_blocked s w f Hf Hprobe).
    + now rewrite (handleUpload_no_file s w Hf).
  - destruct (file s) as [f|] eqn:Hf; [intros _|congruence].
    now rewrite (handleUpload_blocked s w f Hf Hprobe).
  - destruct (file s) as [f|] eqn:Hf.
    + now rewrite (handleUpload_blocked s w f Hf Hprobe).
    + now rewrite (handleUpload_no_file s w Hf).
  - intros s0 w0 pre f0 post Heq.
    destruct (handleUpload_shapes s0 w0)
      as [(e & Hs) | [(e & Hs) | (f & ev & Hev & Hs)]];
      rewrite Hs in Heq; clear Hs.
    + destruct pre as [|? [|? ?]]; discriminate.
    + destruct pre as [|? [|? [|? ?]]]; discriminate.
    + destruct pre as [|p0 pre]; [discriminate|].
      injection Heq as <- _. now left.
Qed.

Lemma C7_unhealthy_probe_witness :
  ~ probe_passes world_degraded /\
  in_phase Failed (step armed (requestUpload world_degraded)) = true /\
  error (step armed (requestUpload world_degraded)) = Some connect_message /\
  existsb is_upload_call (trace (handleUpload armed world_degraded)) = false.
Proof.
  split; [exact world_degraded_fails|].
  destruct (C7_unhealthy_probe_blocks_upload armed world_degraded
              world_degraded_fails) as (Hphase & Herr & Hcall & _).
  split; [exact Hphase|].
  split; [apply Herr; discriminate | exact Hcall].
Defined.

(** C8.  After a passing probe, a 2xx answer whose payload carries a
    non-empty download locator is stored as the result with every field
    but the locator as received, the locator prefixed with the base
    location, and the session ends Succeeded, not busy and without an
    error message. *)
Theorem C8_successful_upload_stores_qualified_result
  (s : UploadSession) (w : World) (f : File)
  (resp : Response ProcessingResult) (data : ProcessingResult)
  (path : string)
  (Hfile : file s = Some f)
  (Hprobe : probe_passes w)
  (Hresp : upload w = inr resp)
  (Hok : ok resp = true)
  (Hbody : body resp = inr data)
  (Hurl : download_url data = Some path)
  (Hpath : path <> "") :
  let s' := step s (requestUpload w) in
  exists r,
    result s' = Some r /\
    stats r = stats data /\
    success r = success data /\
    message r = message data /\
    error_field r = error_field data /\
    download_url r = Some (API_BASE_URL ++ path)%string /\
    in_phase Succeeded s' = true /\
    in_phase Failed s' = false /\
    in_phase Uploading s' = false /\
    file s' = Some f.
Proof.
  unfold step, exec, handler_of.
  rewrite (handleUpload_attempted s w f Hfile Hprobe), Hresp, Hbody, Hok.
  cbn. unfold qualify. rewrite Hurl.
  rewrite (proj2 (String.eqb_neq path "") Hpath).
  eexists. repeat split. exact Hfile.
Qed.

Lemma C8_successful_upload_witness :
  file armed = Some sheet /\ probe_passes world_success /\
  exists r,
    result processed = Some r /\
    stats r = Some example_stats /\
    download_url r = Some (API_BASE_URL ++ "/files/out.csv")%string /\
    in_phase Succeeded processed = true.
Proof.
  split; [reflexivity|]. split; [exact world_success_passes|].
  destruct (C8_successful_upload_stores_qualified_result
              armed world_success sheet
              (mkResponse 200 (inr example_payload)) example_payload
              "/files/out.csv"
              eq_refl world_success_passes eq_refl eq_refl eq_refl eq_refl
              ltac:(discriminate))
    as (r & Hr & Hst & _ & _ & _ & Hurl & Hphase & _).
  exists r. repeat split; assumption.
Defined.

Example processed_total_records :
  option_map total_records
    (match result processed with Some r => stats r | None => None end)
  = Some 5%Z.
Proof. reflexivity. Qed.

(** ** Download *)

(** C10.  Without a result, or with a result whose locator is missing
    or empty, [requestDownload] performs no action at all and the
    session is unchanged. *)
Theorem C10_download_without_locator_is_noop
  (s : UploadSession) (w : World)
  (Hnone : result s = None \/
           exists r, result s = Some r /\ truthy (download_url r) = false) :
  handleDownload s w = ([], inr tt) /\
  existsb is_fetch (trace (handleDownload s w)) = false /\
  step s (requestDownload w) = s.
Proof.
  assert (Hd : handleDownload s w = ([], inr tt)).
  { unfold handleDownload.
    destruct Hnone as [-> | (r & -> & Hurl)]; [reflexivity|].
    destruct (download_url r) as [url|]; [|reflexivity].
    cbn in Hurl. apply negb_false_iff in Hurl. now rewrite Hurl. }
  unfold step, exec, handler_of. rewrite Hd. repeat split.
Qed.

Lemma C10_download_noop_witness :
  result armed = None /\
  handleDownload armed world_success = ([], inr tt) /\
  step armed (requestDownload world_success) = armed.
Proof.
  split; [reflexivity|].
  destruct (C10_download_without_locator_is_noop armed world_success
              (or_introl eq_refl)) as (Hd & _ & Hs).
  split; [exact Hd | exact Hs].
Defined.

(** C6.  In a Succeeded session whose download performs the fetch, a
    fetch that is rejected, answered with a status outside 200..299, or
    whose body cannot be read, leaves the result as it is, so the
    session stays Succeeded, and sets the download error message. *)
Theorem C6_failed_download_keeps_result
  (s : UploadSession) (w : World) (url : string)
  (Hphase : in_phase Succeeded s = true)
  (Hfetch : In (Fetch (GetArtifact url)) (trace (handleDownload s w)))
  (Hfail : (exists e, download w = inl e) \/
           (exists resp, download w = inr resp /\
                         (ok resp = false \/ exists e, body resp = inl e))) :
  let s' := step s (requestDownload w) in
  in_phase Succeeded s' = true /\
  result s' = result s /\
  error s' = Some "Failed to download file" /\
  file s' = file s /\
  uploading s' = uploading s.
Proof.
  unfold step, exec, handler_of.
  unfold handleDownload in *.
  destruct s as [fl up [r|] er dr]; cbn in *; [|contradiction].
  destruct (download_url r) as [u|]; [|contradiction].
  destruct (String.eqb u ""); [contradiction|].
  unfold fetch, read_body in *.
  destruct Hfail as [(e & ->) | (resp & -> & [Hok | (e & Hb)])]; cbn.
  - repeat split.
  - rewrite Hok. cbn. repeat split.
  - destruct (ok resp); cbn; [rewrite Hb|]; cbn; repeat split.
Qed.

Lemma C6_failed_download_witness :
  in_phase Succeeded processed = true /\
  result download_failed = result processed /\
  error download_failed = Some "Failed to download file".
Proof.
  destruct (C6_failed_download_keeps_result processed world_success
              (API_BASE_URL ++ "/files/out.csv")%string
              eq_refl (or_introl eq_refl)
              (or_intror
                 (ex_intro _ (mkResponse 404 (inr []))
                    (conj eq_refl (or_introl eq_refl)))))
    as (_ & Hr & He & _).
  split; [reflexivity|]. split; [exact Hr | exact He].
Defined.

(** Every run of [handleDownload] is one of four shapes. *)
Lemma handleDownload_shapes (s : UploadSession) (w : World) :
  handleDownload s w = ([], inr tt) \/
  (exists url,
      handleDownload s w =
        ([Fetch (GetArtifact url);
          SetError (Some "Failed to download file")], inr tt)) \/
  (exists url blob,
      handleDownload s w =
        ([Fetch (GetArtifact url); CreateObjectURL blob;
          SetError (Some "Failed to download file")], inr tt)) \/
  (exists url blob st,
      handleDownload s w =
        ([Fetch (GetArtifact url); CreateObjectURL blob;
          AppendAnchor (filename st); ClickAnchor; RevokeObjectURL;
          RemoveAnchor], inr tt)).
Proof.
  unfold handleDownload.
  destruct (result s) as [r|]; [|now left].
  destruct (download_url r) as [u|]; [|now left].
  destruct (String.eqb u ""); [now left|].
  unfold fetch, read_body.
  destruct (download w) as [e|resp]; cbn; [right; left; now eexists|].
  destruct (ok resp); cbn; [|right; left; now eexists].
  destruct (body resp) as [e|blob]; cbn; [right; left; now eexists|].
  destruct (stats r) as [st|]; cbn.
  - right. right. right. now eexists _, _, _.
  - right. right. left. now eexists _, _.
Qed.

(** ** Reachable sessions *)

Section Reachable.

Lemma handleDownload_effect (s : UploadSession) (w : World) :
  exec s (handleDownload s w) = s \/
  exec s (handleDownload s w) =
    apply_event s (SetError (Some "Failed to download file")).
Proof.
  unfold exec, handleDownload.
  destruct (result s) as [r|]; [|now left].
  destruct (download_url r) as [u|]; [|now left].
  destruct (String.eqb u ""); [now left|].
  unfold fetch, read_body.
  destruct (download w) as [e|resp]; cbn; [now right|].
  destruct (ok resp); cbn; [|now right].
  destruct (body resp) as [e|blob]; cbn; [now right|].
  destruct (stats r) as [st|]; cbn; [now left | now right].
Qed.

Lemma step_settled (s : UploadSession) (op : Op) :
  settled s -> settled (step s op).
Proof.
  intros [Hup Hres]. unfold settled, step, handler_of.
  destruct op as [candidate | w | w | | w].
  - unfold exec, handleFileSelect.
    destruct (endsWith (name candidate) ".xlsx"); cbn; split; auto;
      congruence.
  - unfold exec.
    destruct (handleUpload_shapes s w)
      as [(e & ->) | [(e & ->) | (f & ev & Hev & Htr)]]; cbn; auto.
    assert (Hf : file s = Some f).
    { unfold handleUpload in Htr. destruct (file s) as [f'|];
        [|discriminate].
      destruct (testBackendConnection_total w) as ([|] & Hb);
        rewrite Hb in Htr; cbn in Htr; [|discriminate].
      unfold fetch, read_body in Htr.
      destruct (upload w) as [e|resp]; cbn in Htr;
        [now injection Htr as -> _|].
      destruct (body resp) as [e|data]; cbn in Htr;
        [now injection Htr as -> _|].
      destruct (ok resp); cbn in Htr; [now injection Htr as -> _|].
      unfold new_Error in Htr.
      destruct (error_message_of (upload_error_value data (status resp)));
        cbn in Htr; now injection Htr as -> _. }
    rewrite Htr.
    destruct Hev as [(r & ->) | (e & ->)]; cbn; split; auto;
      intros _; congruence.
  - destruct (handleDownload_effect s w) as [-> | ->]; cbn; auto.
  - unfold exec, handleReset. cbn. split; auto.
  - unfold exec, mountEffect.
    destruct (testBackendConnection_total w) as (b & ->). cbn. auto.
Qed.

Lemma run_settled (ops : list Op) :
  forall s, settled s -> settled (run ops s).
Proof.
  induction ops as [|op ops IH]; intros s Hs; cbn; [exact Hs|].
  apply IH, step_settled, Hs.
Qed.

Lemma reachable_settled (s : UploadSession) :
  reachable s ->
  uploading s = false /\ (result s <> None -> file s <> None).
Proof.
  intros (ops & ->). apply run_settled. split; [reflexivity|].
  intros H. now elim H.
Qed.

End Reachable.

Lemma download_failed_reachable : reachable download_failed.
Proof.
  exists [selectFile sheet; requestUpload world_success;
          requestDownload world_success].
  reflexivity.
Qed.

(** C2 (as amended).  In every session the results card (Succeeded)
    is shown exactly when a result is held and the error banner (Failed)
    exactly when a non-empty error message is held; the two are not
    exclusive.  What every operation keeps is narrower: a run that
    writes the result also writes the error message to null and writes
    no error message, and a run that writes an error message never
    writes the result.  So an operation that changes the result leaves
    the error message cleared, and an operation that leaves an error
    message set leaves the result as it found it, beside the error. *)
Theorem C2_result_and_error_by_operation
  (s : UploadSession) (op : Op) :
  let tr := trace (handler_of op s) in
  let s' := step s op in
  (result s <> None <-> in_phase Succeeded s = true) /\
  (truthy (error s) = true <-> in_phase Failed s = true) /\
  ((exists r, In (SetResult r) tr) ->
   In (SetError None) tr /\ forall e, ~ In (SetError (Some e)) tr) /\
  ((exists e, In (SetError (Some e)) tr) ->
   forall r, ~ In (SetResult r) tr) /\
  (result s' <> result s -> error s' = None) /\
  (error s' <> None -> result s' = result s).
Proof.
  cbv zeta.
  split; [cbn; destruct (result s); cbn; split; congruence|].
  split; [cbn; tauto|].
  unfold step, exec.
  destruct op as [candidate | w | w | | w]; cbn [handler_of].
  - unfold handleFileSelect.
    destruct (endsWith (name candidate) ".xlsx"); cbn;
      firstorder congruence.
  - destruct (handleUpload_shapes s w)
      as [(e & ->) | [(e & ->) | (f & ev & [(r & ->) | (e & ->)] & ->)]];
      cbn; firstorder congruence.
  - destruct (handleDownload_shapes s w)
      as [-> | [(u & ->) | [(u & b & ->) | (u & b & st & ->)]]];
      cbn; firstorder congruence.
  - cbn; firstorder congruence.
  - unfold mountEffect.
    destruct (testBackendConnection_total w) as (b & ->).
    cbn; firstorder congruence.
Qed.

Lemma C2_result_and_error_witness :
  in_phase Succeeded download_failed = true /\
  in_phase Failed download_failed = true /\
  result (step processed (requestDownload world_success))
  = result processed /\
  error (step armed (requestUpload world_success)) = None.
Proof.
  destruct (C2_result_and_error_by_operation download_failed reset)
    as (Hs & Hf & _).
  destruct (C2_result_and_error_by_operation processed
              (requestDownload world_success))
    as (_ & _ & _ & _ & _ & Hkeep).
  destruct (C2_result_and_error_by_operation armed
              (requestUpload world_success))
    as (_ & _ & _ & _ & Hclear & _).
  split; [apply Hs; discriminate|].
  split; [apply Hf; reflexivity|].
  split; [apply Hkeep; discriminate | apply Hclear; discriminate].
Defined.

(** C2 (as stated) fails: after a processed upload whose download
    fails, the result and the error message are both held. *)
Lemma C2_counterexample :
  ~ (forall s : UploadSession,
        reachable s ->
        (result s <> None <-> in_phase Succeeded s = true) /\
        (error s <> None <-> in_phase Failed s = true) /\
        ~ (result s <> None /\ error s <> None)).
Proof.
  intros H.
  destruct (H download_failed download_failed_reachable) as (_ & _ & Hboth).
  apply Hboth. split; discriminate.
Qed.

(** The same happens when a selection is rejected while a result is
    shown. *)
Example rejected_selection_after_success :
  result (step processed (selectFile notes)) = result processed /\
  error (step processed (selectFile notes))
    = Some "Please select a valid .xlsx file".
Proof. split; reflexivity. Qed.

(** * Further properties of the handlers *)

(** ** Selection, picker and drop zone *)

(** X1.  [handleFileSelect] stores the candidate, with the error and
    the result cleared, exactly when its name is some prefix followed by
    ".xlsx" (the prefix may be empty and the test is case sensitive). *)
Theorem X1_selection_accepted_iff_xlsx_suffix
  (s : UploadSession) (candidate : File) :
  (exists p, name candidate = (p ++ ".xlsx")%string) <->
  (file (step s (selectFile candidate)) = Some candidate /\
   error (step s (selectFile candidate)) = None /\
   result (step s (selectFile candidate)) = None).
Proof.
  rewrite <- endsWith_spec.
  unfold step, exec, handler_of, handleFileSelect.
  destruct (endsWith (name candidate) ".xlsx"); cbn.
  - split; auto.
  - split; [discriminate|]. intros (_ & He & _). discriminate He.
Qed.

(** X2.  An accepted selection overrides whatever selection, accepted
    or rejected, came just before it. *)
Theorem X2_last_accepted_selection_wins
  (s : UploadSession) (earlier later : File)
  (Hname : endsWith (name later) ".xlsx" = true) :
  step (step s (selectFile earlier)) (selectFile later)
  = step s (selectFile later).
Proof.
  unfold step, exec, handler_of, handleFileSelect. rewrite Hname.
  destruct (endsWith (name earlier) ".xlsx"); reflexivity.
Qed.

Lemma X2_last_accepted_selection_witness :
  endsWith (name ledger) ".xlsx" = true /\
  step (step processed (selectFile notes)) (selectFile ledger)
  = step processed (selectFile ledger).
Proof.
  split; [reflexivity|].
  exact (X2_last_accepted_selection_wins processed notes ledger eq_refl).
Defined.

(** X3.  Of the files dropped or picked only the first is considered;
    a drop always ends the drag highlight, also when the file is
    rejected or nothing was dropped, and an empty pick changes
    nothing. *)
Theorem X3_drop_and_pick_take_first_file
  (s : UploadSession) (files : list File) :
  exec s (handleDrop files) = exec s (handleDrop (firstn 1 files)) /\
  exec s (handleFileInputChange files)
  = exec s (handleFileInputChange (firstn 1 files)) /\
  dragActive (exec s (handleDrop files)) = false /\
  exec s (handleDrop files)
  = exec (apply_event s (SetDragActive false))
         (handleFileInputChange files) /\
  (files = [] -> exec s (handleFileInputChange files) = s).
Proof.
  destruct files as [|f rest]; cbn.
  - repeat split.
  - unfold exec, handleDrop, handleFileInputChange, handleFileSelect.
    destruct (endsWith (name f) ".xlsx"); cbn; repeat split; discriminate.
Qed.

(** X4.  Drag events only move the highlight: the selected file, the
    busy indicator, the result and the error are never touched, and an
    event type other than dragenter, dragover and dragleave changes
    nothing at all. *)
Theorem X4_drag_only_moves_highlight (s : UploadSession) (type : string) :
  let s' := exec s (handleDrag type) in
  file s' = file s /\ uploading s' = uploading s /\
  result s' = result s /\ error s' = error s /\
  (type <> "dragenter" -> type <> "dragover" -> type <> "dragleave" ->
   s' = s).
Proof.
  unfold exec, handleDrag.
  destruct (String.eqb_spec type "dragenter") as [->|H1]; cbn.
  - repeat split. congruence.
  - destruct (String.eqb_spec type "dragover") as [->|H2]; cbn.
    + repeat split. congruence.
    + destruct (String.eqb_spec type "dragleave") as [->|H3]; cbn.
      * repeat split. congruence.
      * repeat split.
Qed.

(** ** The probe and the mount effect *)

Lemma testBackendConnection_true_passes (w : World) :
  testBackendConnection w = ([Fetch GetHealth], inr true) ->
  probe_passes w.
Proof.
  intros Hrun.
  unfold testBackendConnection, fetch, read_body, status_is_healthy
    in Hrun.
  destruct (health w) as [e|resp] eqn:Hh; cbn in Hrun; [discriminate|].
  destruct (body resp) as [e|data] eqn:Hb; cbn in Hrun; [discriminate|].
  destruct (health_status data) as [st|] eqn:Hs; [|discriminate].
  destruct (String.eqb_spec st "healthy") as [->|Hne]; [|discriminate].
  now exists resp, data.
Qed.

(** X5.  [testBackendConnection] issues exactly one health request,
    never throws, and answers true exactly when the request was
    answered, the body parsed and its status is "healthy"; the HTTP
    status of the answer plays no part. *)
Theorem X5_probe_true_iff_healthy_body (w : World) :
  (exists b, testBackendConnection w = ([Fetch GetHealth], inr b)) /\
  (testBackendConnection w = ([Fetch GetHealth], inr true)
   <-> probe_passes w) /\
  (forall code code' b u d,
      testBackendConnection (mkWorld (inr (mkResponse code b)) u d)
      = testBackendConnection (mkWorld (inr (mkResponse code' b)) u d)).
Proof.
  split; [apply testBackendConnection_total|]. split.
  - split; [apply testBackendConnection_true_passes
           | apply testBackendConnection_passes].
  - reflexivity.
Qed.

(** X6.  The probe made on mount leaves the session as it is, whatever
    the backend answers: a failed probe is not shown to the user. *)
Theorem X6_mount_probe_leaves_session (s : UploadSession) (w : World) :
  step s (probeHealth w) = s /\
  trace (mountEffect w) = [Fetch GetHealth] /\
  snd (mountEffect w) = inr tt.
Proof.
  unfold step, exec, handler_of, mountEffect.
  destruct (testBackendConnection_total w) as (b & ->). repeat split.
Qed.

(** ** Upload *)

(** X7.  Without a selected file [handleUpload] sends no request at
    all: it sets the "select a file first" message and leaves the rest
    of the session as it is. *)
Theorem X7_upload_without_file_sends_nothing
  (s : UploadSession) (w : World)
  (Hnone : file s = None) :
  let s' := step s (requestUpload w) in
  count is_fetch (trace (handleUpload s w)) = 0 /\
  error s' = Some "Please select a file first" /\
  in_phase Failed s' = true /\
  file s' = None /\ result s' = result s /\ uploading s' = uploading s.
Proof.
  unfold step, exec, handler_of.
  rewrite (handleUpload_no_file s w Hnone). cbn. repeat split.
  exact Hnone.
Qed.

Lemma X7_upload_without_file_witness :
  file initial = None /\
  count is_fetch (trace (handleUpload initial world_success)) = 0 /\
  error (step initial (requestUpload world_success))
  = Some "Please select a file first".
Proof.
  split; [reflexivity|].
  destruct (X7_upload_without_file_sends_nothing initial world_success
              eq_refl) as (Hc & He & _).
  split; [exact Hc | exact He].
Defined.

(** X8.  No handler lets an exception escape: whatever the outside
    world answers, every operation returns normally. *)
Theorem X8_no_operation_throws (s : UploadSession) (op : Op) :
  snd (handler_of op s) = inr tt.
Proof.
  destruct op as [candidate | w | w | | w]; cbn.
  - unfold handleFileSelect.
    destruct (endsWith (name candidate) ".xlsx"); reflexivity.
  - unfold handleUpload. destruct (file s) as [f|]; [|reflexivity].
    destruct (testBackendConnection_total w) as ([|] & ->); cbn;
      [|reflexivity].
    unfold fetch, read_body.
    destruct (upload w) as [e|resp]; cbn; [reflexivity|].
    destruct (body resp) as [e|data]; cbn; [reflexivity|].
    destruct (ok resp); [reflexivity|]. cbn. unfold new_Error.
    destruct (error_message_of (upload_error_value data (status resp)));
      reflexivity.
  - destruct (handleDownload_shapes s w)
      as [-> | [(u & ->) | [(u & b & ->) | (u & b & st & ->)]]];
      reflexivity.
  - reflexivity.
  - unfold mountEffect.
    destruct (testBackendConnection_total w) as (b & ->). reflexivity.
Qed.

(** X9.  Nothing is retried: one operation sends the health request,
    the upload request and the artifact request at most once each, and
    at most two requests in all. *)
Theorem X9_no_request_is_repeated (s : UploadSession) (op : Op) :
  let tr := trace (handler_of op s) in
  count is_health_call tr <= 1 /\
  count is_upload_call tr <= 1 /\
  count is_artifact_call tr <= 1 /\
  count is_fetch tr <= 2.
Proof.
  destruct op as [candidate | w | w | | w]; cbn.
  - unfold handleFileSelect.
    destruct (endsWith (name candidate) ".xlsx"); cbn; lia.
  - destruct (handleUpload_shapes s w)
      as [(e & ->) | [(e & ->) | (f & ev & [(r & ->) | (e & ->)] & ->)]];
      cbn; lia.
  - destruct (handleDownload_shapes s w)
      as [-> | [(u & ->) | [(u & b & ->) | (u & b & st & ->)]]];
      cbn; lia.
  - lia.
  - unfold mountEffect.
    destruct (testBackendConnection_total w) as (b & ->). cbn. lia.
Qed.

(** X10.  Uploading, downloading and probing never change the selected
    file or the drag highlight, and downloading and probing never
    change the result or the busy indicator. *)
Theorem X10_selected_file_survives_requests
  (s : UploadSession) (w : World) :
  file (step s (requestUpload w)) = file s /\
  dragActive (step s (requestUpload w)) = dragActive s /\
  file (step s (requestDownload w)) = file s /\
  dragActive (step s (requestDownload w)) = dragActive s /\
  result (step s (requestDownload w)) = result s /\
  uploading (step s (requestDownload w)) = uploading s /\
  step s (probeHealth w) = s.
Proof.
  unfold step, exec, handler_of.
  assert (Hup :
    file (fold_left apply_event (trace (handleUpload s w)) s) = file s /\
    dragActive (fold_left apply_event (trace (handleUpload s w)) s)
    = dragActive s).
  { destruct (handleUpload_shapes s w)
      as [(e & ->) | [(e & ->) | (f & ev & [(r & ->) | (e & ->)] & ->)]];
      cbn; split; reflexivity. }
  destruct Hup as [Hf Hd].
  split; [exact Hf|]. split; [exact Hd|].
  destruct (handleDownload_shapes s w)
    as [-> | [(u & ->) | [(u & b & ->) | (u & b & st & ->)]]];
    cbn; repeat split;
    try (unfold mountEffect;
         destruct (testBackendConnection_total w) as (b' & ->);
         reflexivity);
    now destruct s.
Qed.

(** X11.  When, after a passing probe, the upload request is rejected
    (a network failure) or its body cannot be parsed, the message is
    the one of the exception when that is an [Error] and the generic
    upload message otherwise; the earlier result is kept and the busy
    indicator is cleared. *)
Theorem X11_upload_exception_message
  (s : UploadSession) (w : World) (f : File) (e : Thrown)
  (Hfile : file s = Some f)
  (Hprobe : probe_passes w)
  (Hthrown : upload w = inl e \/
             exists resp, upload w = inr resp /\ body resp = inl e) :
  let s' := step s (requestUpload w) in
  error s' = Some match e with
                  | ErrorObj m => m
                  | OtherThrown =>
                      "An error occurred while uploading the file"
                  end /\
  result s' = result s /\
  uploading s' = false /\
  count is_clear (trace (handleUpload s w)) = 1.
Proof.
  unfold step, exec, handler_of.
  rewrite (handleUpload_attempted s w f Hfile Hprobe).
  destruct Hthrown as [-> | (resp & -> & ->)]; cbn;
    destruct e; repeat split.
Qed.

Lemma X11_upload_exception_witness :
  file armed = Some sheet /\ probe_passes world_offline /\
  error (step armed (requestUpload world_offline))
  = Some "Failed to fetch" /\
  uploading (step armed (requestUpload world_offline)) = false.
Proof.
  assert (Hp : probe_passes world_offline)
    by (eexists _, _; repeat split).
  split; [reflexivity|]. split; [exact Hp|].
  destruct (X11_upload_exception_message armed world_offline sheet
              (ErrorObj "Failed to fetch") eq_refl Hp
              (or_introl eq_refl)) as (He & _ & Hu & _).
  split; [exact He | exact Hu].
Defined.

(** X12.  A success payload without a download locator (absent or
    empty) is stored exactly as received, and the download of such a
    result does nothing. *)
Theorem X12_result_without_locator_is_stored_verbatim
  (s : UploadSession) (w : World) (f : File)
  (resp : Response ProcessingResult) (data : ProcessingResult)
  (Hfile : file s = Some f)
  (Hprobe : probe_passes w)
  (Hresp : upload w = inr resp)
  (Hok : ok resp = true)
  (Hbody : body resp = inr data)
  (Hurl : truthy (download_url data) = false) :
  let s' := step s (requestUpload w) in
  result s' = Some data /\
  error s' = None /\
  forall w', handleDownload s' w' = ([], inr tt).
Proof.
  unfold step, exec, handler_of.
  rewrite (handleUpload_attempted s w f Hfile Hprobe), Hresp, Hbody, Hok.
  assert (Hq : qualify data = data).
  { unfold qualify. destruct (download_url data) as [path|];
      [|reflexivity].
    cbn in Hurl. apply negb_false_iff in Hurl. now rewrite Hurl. }
  rewrite Hq. cbn. repeat split.
  intros w'. unfold handleDownload. cbn.
  destruct (download_url data) as [path|]; [|reflexivity].
  cbn in Hurl. apply negb_false_iff in Hurl. now rewrite Hurl.
Qed.

Lemma X12_result_without_locator_witness :
  file armed = Some sheet /\ probe_passes world_no_locator /\
  result (step armed (requestUpload world_no_locator))
  = Some payload_without_locator /\
  handleDownload (step armed (requestUpload world_no_locator))
                 world_no_locator = ([], inr tt).
Proof.
  assert (Hp : probe_passes world_no_locator)
    by (eexists _, _; repeat split).
  split; [reflexivity|]. split; [exact Hp|].
  destruct (X12_result_without_locator_is_stored_verbatim
              armed world_no_locator sheet
              (mkResponse 200 (inr payload_without_locator))
              payload_without_locator
              eq_refl Hp eq_refl eq_refl eq_refl eq_refl)
    as (Hr & _ & Hd).
  split; [exact Hr | exact (Hd world_no_locator)].
Defined.

Lemma append_cancel_l (p a b : string) :
  (p ++ a)%string = (p ++ b)%string -> a = b.
Proof.
  induction p as [|c p IH]; cbn; intros H; [exact H|].
  injection H as H. now apply IH.
Qed.

Lemma to_uint_not_nil (n : nat) : Nat.to_uint n <> Nil.
Proof.
  destruct n as [|n]; [discriminate|].
  intros H. pose proof (DecimalNat.Unsigned.of_to (S n)) as Hof.
  rewrite H in Hof. discriminate Hof.
Qed.

Lemma string_of_nat_inj (n m : nat) :
  string_of_nat n = string_of_nat m -> n = m.
Proof.
  unfold string_of_nat. intros H.
  apply DecimalNat.Unsigned.to_uint_inj.
  pose proof (NilZero.usu _ (to_uint_not_nil n)) as Hn.
  pose proof (NilZero.usu _ (to_uint_not_nil m)) as Hm.
  rewrite H in Hn. rewrite Hn in Hm. now injection Hm.
Qed.

(** X13.  When the failure payload has neither a usable [error] nor a
    usable [message], the message shown determines the status code:
    two different codes never give the same message. *)
Theorem X13_status_message_tells_codes_apart
  (data : ProcessingResult) (code code' : nat)
  (Herr : is_truthy (error_field data) = false)
  (Hmsg : is_truthy (message data) = false)
  (Hne : code <> code') :
  upload_failed_message data code <> upload_failed_message data code'.
Proof.
  assert (Hfall : forall c,
             upload_failed_message data c
             = ("Upload failed with status " ++ string_of_nat c)%string).
  { intros c. unfold upload_failed_message, upload_error_value, or_json.
    rewrite Herr. cbn. now rewrite Hmsg. }
  rewrite !Hfall. intros H. apply Hne.
  apply append_cancel_l in H. now apply string_of_nat_inj.
Qed.

Lemma X13_status_message_witness :
  is_truthy (error_field empty_object) = false /\
  is_truthy (message empty_object) = false /\
  500 <> 503 /\
  upload_failed_message empty_object 500
  <> upload_failed_message empty_object 503.
Proof.
  split; [reflexivity|]. split; [reflexivity|].
  assert (Hne : 500 <> 503) by (intros H; discriminate H).
  split; [exact Hne|].
  exact (X13_status_message_tells_codes_apart empty_object 500 503
           eq_refl eq_refl Hne).
Defined.

(** ** Download *)

Lemma prefix_append (a b : string) : prefix a (a ++ b) = true.
Proof.
  induction a as [|c a IH]; cbn; [now destruct b|].
  destruct (ascii_dec c c) as [_|Hc]; [exact IH | now elim Hc].
Qed.

Lemma qualify_locator (data : ProcessingResult) (u : string) :
  download_url (qualify data) = Some u -> u <> "" ->
  prefix API_BASE_URL u = true.
Proof.
  unfold qualify. destruct (download_url data) as [path|] eqn:Hd.
  - destruct (String.eqb_spec path "") as [->|Hp].
    + rewrite Hd. intros [= <-] Hu. now elim Hu.
    + cbn. intros [= <-] _. exact (prefix_append API_BASE_URL path).
  - rewrite Hd. discriminate.
Qed.

(** What an upload can do to the result. *)
Lemma handleUpload_result (s : UploadSession) (w : World) :
  result (step s (requestUpload w)) = result s \/
  exists data, result (step s (requestUpload w)) = Some (qualify data).
Proof.
  unfold step, exec, handler_of, handleUpload.
  destruct (file s) as [f|]; [|now left].
  destruct (testBackendConnection_total w) as ([|] & ->); cbn;
    [|now left].
  unfold fetch, read_body.
  destruct (upload w) as [e|resp]; cbn; [now left|].
  destruct (body resp) as [e|data]; cbn; [now left|].
  destruct (ok resp); cbn; [right; now exists data|].
  unfold new_Error.
  destruct (error_message_of (upload_error_value data (status resp)));
    now left.
Qed.

Lemma step_keeps_locator_absolute (s : UploadSession) (op : Op) :
  (forall r u, result s = Some r -> download_url r = Some u ->
               u <> "" -> prefix API_BASE_URL u = true) ->
  forall r u, result (step s op) = Some r -> download_url r = Some u ->
              u <> "" -> prefix API_BASE_URL u = true.
Proof.
  intros Hs r u Hr Hu Hne.
  destruct op as [candidate | w | w | | w].
  - unfold step, exec, handler_of, handleFileSelect in Hr.
    destruct (endsWith (name candidate) ".xlsx"); cbn in Hr;
      [discriminate | eauto].
  - destruct (handleUpload_result s w) as [Heq | (data & Heq)];
      rewrite Heq in Hr.
    + eauto.
    + injection Hr as <-. eapply qualify_locator; eauto.
  - destruct (handleDownload_effect s w) as [Heq | Heq];
      unfold step, handler_of in Hr; rewrite Heq in Hr; cbn in Hr; eauto.
  - discriminate Hr.
  - unfold step, exec, handler_of, mountEffect in Hr.
    destruct (testBackendConnection_total w) as (b & Hb).
    rewrite Hb in Hr. cbn in Hr. eauto.
Qed.

Lemma reachable_locator_absolute (s : UploadSession) :
  reachable s ->
  forall r u, result s = Some r -> download_url r = Some u ->
              u <> "" -> prefix API_BASE_URL u = true.
Proof.
  intros (ops & ->).
  assert (Hgen : forall ops s0,
    (forall r u, result s0 = Some r -> download_url r = Some u ->
                 u <> "" -> prefix API_BASE_URL u = true) ->
    forall r u, result (run ops s0) = Some r -> download_url r = Some u ->
                u <> "" -> prefix API_BASE_URL u = true).
  { clear ops. induction ops as [|op ops IH]; intros s0 H0; cbn;
      [exact H0|].
    apply IH. now apply step_keeps_locator_absolute. }
  apply Hgen. cbn. discriminate.
Qed.

(** X14.  Once an upload has stored a result with a locator, the
    download that follows requests exactly the qualified locator, the
    base location followed by the returned path. *)
Theorem X14_download_requests_qualified_locator
  (s : UploadSession) (w w' : World) (f : File)
  (resp : Response ProcessingResult) (data : ProcessingResult)
  (path : string)
  (Hfile : file s = Some f)
  (Hprobe : probe_passes w)
  (Hresp : upload w = inr resp)
  (Hok : ok resp = true)
  (Hbody : body resp = inr data)
  (Hurl : download_url data = Some path)
  (Hpath : path <> "") :
  exists rest,
    trace (handleDownload (step s (requestUpload w)) w')
    = Fetch (GetArtifact (API_BASE_URL ++ path)) :: rest /\
    count is_fetch rest = 0.
Proof.
  unfold step, exec, handler_of.
  rewrite (handleUpload_attempted s w f Hfile Hprobe), Hresp, Hbody, Hok.
  cbn. unfold handleDownload, qualify. cbn. rewrite Hurl.
  rewrite (proj2 (String.eqb_neq path "") Hpath). cbn.
  unfold fetch, read_body.
  destruct (download w') as [e|r']; cbn; [now eexists|].
  destruct (ok r'); cbn; [|now eexists].
  destruct (body r') as [e|blob]; cbn; [now eexists|].
  destruct (stats data); cbn; now eexists.
Qed.

Lemma X14_download_requests_witness :
  file armed = Some sheet /\ probe_passes world_success /\
  exists rest,
    trace (handleDownload processed world_served)
    = Fetch (GetArtifact (API_BASE_URL ++ "/files/out.csv")) :: rest.
Proof.
  split; [reflexivity|]. split; [exact world_success_passes|].
  destruct (X14_download_requests_qualified_locator
              armed world_success world_served sheet
              (mkResponse 200 (inr example_payload)) example_payload
              "/files/out.csv"
              eq_refl world_success_passes eq_refl eq_refl eq_refl eq_refl
              ltac:(discriminate))
    as (rest & Htr & _).
  exists rest. exact Htr.
Defined.

(** X15.  In every session reachable by the operations, whatever the
    backend answered, a download only ever requests a location that
    starts with the base location. *)
Theorem X15_downloads_stay_on_the_backend
  (s : UploadSession) (w : World) (url : string)
  (Hreach : reachable s)
  (Hfetch : In (Fetch (GetArtifact url)) (trace (handleDownload s w))) :
  prefix API_BASE_URL url = true.
Proof.
  pose proof (reachable_locator_absolute s Hreach) as Hloc.
  unfold handleDownload in Hfetch.
  destruct (result s) as [r|]; [|contradiction].
  destruct (download_url r) as [u|] eqn:Hu; [|contradiction].
  destruct (String.eqb_spec u "") as [->|Hne]; [contradiction|].
  assert (Hurl : url = u).
  { unfold fetch, read_body in Hfetch.
    destruct (download w) as [e|resp]; cbn in Hfetch.
    - destruct Hfetch as [[= ->] | [H | []]]; [reflexivity | discriminate].
    - destruct (ok resp); cbn in Hfetch.
      + destruct (body resp) as [e|blob]; cbn in Hfetch.
        * destruct Hfetch as [[= ->] | [H | []]];
            [reflexivity | discriminate].
        * destruct (stats r); cbn in Hfetch;
            repeat (destruct Hfetch as [Hfetch | Hfetch];
                    [first [now injection Hfetch | discriminate]|]);
            contradiction.
      + destruct Hfetch as [[= ->] | [H | []]];
          [reflexivity | discriminate]. }
  subst url. now apply (Hloc r u).
Qed.

Lemma X15_downloads_stay_witness :
  reachable processed /\
  prefix API_BASE_URL (API_BASE_URL ++ "/files/out.csv") = true.
Proof.
  assert (Hr : reachable processed).
  { exists [selectFile sheet; requestUpload world_success]. reflexivity. }
  split; [exact Hr|].
  exact (X15_downloads_stay_on_the_backend processed world_served
           (API_BASE_URL ++ "/files/out.csv")%string Hr
           (or_introl eq_refl)).
Defined.

(** X16.  When the artifact is served and the result has its
    statistics, the download saves the content under the name
    [result.stats.filename], revokes the object URL after the click,
    removes the anchor last, and leaves the session as it is. *)
Theorem X16_served_download_saves_under_filename
  (s : UploadSession) (w : World) (r : ProcessingResult) (st : Stats)
  (url : string) (resp : Response Blob) (blob : Blob)
  (Hres : result s = Some r)
  (Hurl : download_url r = Some url)
  (Hne : url <> "")
  (Hstats : stats r = Some st)
  (Hresp : download w = inr resp)
  (Hok : ok resp = true)
  (Hbody : body resp = inr blob) :
  handleDownload s w =
    ([Fetch (GetArtifact url); CreateObjectURL blob;
      AppendAnchor (filename st); ClickAnchor; RevokeObjectURL;
      RemoveAnchor], inr tt) /\
  step s (requestDownload w) = s.
Proof.
  assert (Hd : handleDownload s w =
    ([Fetch (GetArtifact url); CreateObjectURL blob;
      AppendAnchor (filename st); ClickAnchor; RevokeObjectURL;
      RemoveAnchor], inr tt)).
  { unfold handleDownload. rewrite Hres, Hurl.
    rewrite (proj2 (String.eqb_neq url "") Hne).
    unfold fetch, read_body. rewrite Hresp. cbn. rewrite Hok. cbn.
    rewrite Hbody. cbn. rewrite Hstats. reflexivity. }
  split; [exact Hd|].
  unfold step, exec, handler_of. rewrite Hd. reflexivity.
Qed.

Lemma X16_served_download_witness :
  result processed <> None /\
  trace (handleDownload processed world_served)
  = [Fetch (GetArtifact (API_BASE_URL ++ "/files/out.csv"));
     CreateObjectURL [x41; x2c; x42]; AppendAnchor "out.csv"; ClickAnchor;
     RevokeObjectURL; RemoveAnchor] /\
  step processed (requestDownload world_served) = processed.
Proof.
  split; [discriminate|].
  destruct (X16_served_download_saves_under_filename
              processed world_served
              (with_download_url example_payload
                 (API_BASE_URL ++ "/files/out.csv"))
              example_stats
              (API_BASE_URL ++ "/files/out.csv")
              (mkResponse 200 (inr [x41; x2c; x42])) [x41; x2c; x42]
              eq_refl eq_refl ltac:(discriminate) eq_refl eq_refl eq_refl
              eq_refl)
    as (Hd & Hs).
  split; [now rewrite Hd | exact Hs].
Defined.

(** X17.  As long as the held result has its statistics, every object
    URL a download creates is revoked in the same run, whatever the
    backend answers. *)
Theorem X17_object_url_released_when_stats_present
  (s : UploadSession) (w : World)
  (Hstats : forall r, result s = Some r -> stats r <> None) :
  count is_create (trace (handleDownload s w))
  = count is_revoke (trace (handleDownload s w)) /\
  count is_create (trace (handleDownload s w)) <= 1.
Proof.
  unfold handleDownload.
  destruct (result s) as [r|]; [|cbn; lia].
  specialize (Hstats r eq_refl).
  destruct (download_url r) as [u|]; [|cbn; lia].
  destruct (String.eqb u ""); [cbn; lia|].
  unfold fetch, read_body.
  destruct (download w) as [e|resp]; cbn; [lia|].
  destruct (ok resp); cbn; [|lia].
  destruct (body resp) as [e|blob]; cbn; [lia|].
  destruct (stats r) as [st|]; [cbn; lia | now elim Hstats].
Qed.

Lemma X17_object_url_released_witness :
  (forall r, result processed = Some r -> stats r <> None) /\
  count is_create (trace (handleDownload processed world_served)) = 1 /\
  count is_revoke (trace (handleDownload processed world_served)) = 1.
Proof.
  assert (Hst : forall r, result processed = Some r -> stats r <> None).
  { intros r [= <-]. discriminate. }
  split; [exact Hst|].
  destruct (X17_object_url_released_when_stats_present
              processed world_served Hst) as (Heq & _).
  split; [reflexivity | now rewrite <- Heq].
Defined.

(** X18.  When the held result lacks its statistics and the artifact
    is served, the download creates an object URL, fails on reading
    [result.stats.filename], and reports the download error without
    saving anything and without revoking the URL. *)
Theorem X18_download_without_stats_leaks_url
  (s : UploadSession) (w : World) (r : ProcessingResult)
  (url : string) (resp : Response Blob) (blob : Blob)
  (Hres : result s = Some r)
  (Hurl : download_url r = Some url)
  (Hne : url <> "")
  (Hstats : stats r = None)
  (Hresp : download w = inr resp)
  (Hok : ok resp = true)
  (Hbody : body resp = inr blob) :
  let tr := trace (handleDownload s w) in
  tr = [Fetch (GetArtifact url); CreateObjectURL blob;
        SetError (Some "Failed to download file")] /\
  count is_create tr = 1 /\ count is_revoke tr = 0 /\
  error (step s (requestDownload w)) = Some "Failed to download file" /\
  result (step s (requestDownload w)) = result s.
Proof.
  assert (Hd : handleDownload s w =
    ([Fetch (GetArtifact url); CreateObjectURL blob;
      SetError (Some "Failed to download file")], inr tt)).
  { unfold handleDownload. rewrite Hres, Hurl.
    rewrite (proj2 (String.eqb_neq url "") Hne).
    unfold fetch, read_body. rewrite Hresp. cbn. rewrite Hok. cbn.
    rewrite Hbody. cbn. rewrite Hstats. reflexivity. }
  unfold step, exec, handler_of. rewrite Hd. cbn. repeat split.
Qed.

Lemma X18_download_without_stats_witness :
  result (step armed (requestUpload world_no_stats)) <> None /\
  count is_revoke
    (trace (handleDownload (step armed (requestUpload world_no_stats))
                           world_no_stats)) = 0 /\
  error (step (step armed (requestUpload world_no_stats))
              (requestDownload world_no_stats))
  = Some "Failed to download file".
Proof.
  split; [discriminate|].
  destruct (X18_download_without_stats_leaks_url
              (step armed (requestUpload world_no_stats)) world_no_stats
              (with_download_url payload_without_stats
                 (API_BASE_URL ++ "/files/out.csv"))
              (API_BASE_URL ++ "/files/out.csv")
              (mkResponse 200 (inr [x41; x2c; x42])) [x41; x2c; x42]
              eq_refl eq_refl ltac:(discriminate) eq_refl eq_refl eq_refl
              eq_refl)
    as (_ & _ & Hrev & Herr & _).
  split; [exact Hrev | exact Herr].
Defined.

(** ** Sequences of operations *)

Lemma step_keeps_drag (s : UploadSession) (op : Op) :
  dragActive (step s op) = dragActive s.
Proof.
  unfold step, exec, handler_of.
  destruct op as [candidate | w | w | | w].
  - unfold handleFileSelect.
    destruct (endsWith (name candidate) ".xlsx"); reflexivity.
  - destruct (handleUpload_shapes s w)
      as [(e & ->) | [(e & ->) | (f & ev & [(r & ->) | (e & ->)] & ->)]];
      reflexivity.
  - destruct (handleDownload_shapes s w)
      as [-> | [(u & ->) | [(u & b & ->) | (u & b & st & ->)]]];
      reflexivity.
  - reflexivity.
  - unfold mountEffect.
    destruct (testBackendConnection_total w) as (b & ->). reflexivity.
Qed.

Lemma run_keeps_drag (ops : list Op) :
  forall s, dragActive (run ops s) = dragActive s.
Proof.
  induction ops as [|op ops IH]; intros s; cbn; [reflexivity|].
  now rewrite IH, step_keeps_drag.
Qed.

(** X19.  From every session reachable by the operations, [reset]
    leads back to the initial session. *)
Theorem X19_reset_restores_initial_session
  (s : UploadSession) (Hreach : reachable s) :
  step s reset = initial.
Proof.
  destruct (reachable_settled s Hreach) as [Hup _].
  destruct Hreach as (ops & ->).
  unfold step, exec, handler_of, handleReset. cbn.
  rewrite Hup, run_keeps_drag. reflexivity.
Qed.

Lemma X19_reset_restores_witness :
  reachable download_failed /\ step download_failed reset = initial.
Proof.
  split; [exact download_failed_reachable|].
  exact (X19_reset_restores_initial_session download_failed
           download_failed_reachable).
Defined.

(** X20.  After a reset nothing is armed: an upload requested next
    sends no request and asks for a file, whatever was selected
    before. *)
Theorem X20_reset_disarms_upload (s : UploadSession) (w : World) :
  count is_fetch (trace (handleUpload (step s reset) w)) = 0 /\
  error (step (step s reset) (requestUpload w))
  = Some "Please select a file first".
Proof.
  assert (Hf : file (step s reset) = None) by reflexivity.
  unfold step at 2. unfold exec, handler_of.
  rewrite (handleUpload_no_file (step s reset) w Hf). now split.
Qed.

(** X21.  A rejected selection does not disarm the session: the file
    accepted before it is the one an upload sends next. *)
Theorem X21_rejected_selection_keeps_upload_armed
  (s : UploadSession) (w : World) (accepted rejected : File)
  (Hacc : endsWith (name accepted) ".xlsx" = true)
  (Hrej : endsWith (name rejected) ".xlsx" = false)
  (Hprobe : probe_passes w) :
  In (Fetch (PostUpload accepted))
     (trace (handleUpload
               (step (step s (selectFile accepted)) (selectFile rejected))
               w)).
Proof.
  assert (Hf : file (step (step s (selectFile accepted))
                          (selectFile rejected)) = Some accepted).
  { unfold step, exec, handler_of, handleFileSelect.
    rewrite Hacc, Hrej. reflexivity. }
  rewrite (handleUpload_attempted _ w accepted Hf Hprobe).
  cbn. auto.
Qed.

Lemma X21_rejected_selection_witness :
  endsWith (name sheet) ".xlsx" = true /\
  endsWith (name notes) ".xlsx" = false /\
  probe_passes world_success /\
  In (Fetch (PostUpload sheet))
     (trace (handleUpload
               (step (step initial (selectFile sheet)) (selectFile notes))
               world_success)).
Proof.
  split; [reflexivity|]. split; [reflexivity|].
  split; [exact world_success_passes|].
  exact (X21_rejected_selection_keeps_upload_armed initial world_success
           sheet notes eq_refl eq_refl world_success_passes).
Defined.

(** X22.  The upload request of a run carries the file that was
    selected in the session the handler was started in, and is sent only
    when the probe of that run has passed. *)
Theorem X22_upload_request_needs_file_and_probe
  (s : UploadSession) (w : World) (f : File)
  (Hsent : In (Fetch (PostUpload f)) (trace (handleUpload s w))) :
  file s = Some f /\ probe_passes w.
Proof.
  destruct (file s) as [f'|] eqn:Hf.
  - destruct (testBackendConnection_total w) as ([|] & Hb).
    + pose proof (testBackendConnection_true_passes w Hb) as Hp.
      split; [|exact Hp].
      rewrite (handleUpload_attempted s w f' Hf Hp) in Hsent.
      cbn in Hsent.
      destruct Hsent as [H | [H | [H | [H | [H | [H | []]]]]]];
        try discriminate H.
      * now injection H as ->.
      * destruct (upload w) as [e|resp]; [discriminate H|].
        destruct (body resp) as [e|data]; [discriminate H|].
        destruct (ok resp); discriminate H.
    + unfold handleUpload in Hsent. rewrite Hf, Hb in Hsent.
      cbn in Hsent. destruct Hsent as [H | [H | []]]; discriminate H.
  - rewrite (handleUpload_no_file s w Hf) in Hsent.
    cbn in Hsent. destruct Hsent as [H | []]. discriminate H.
Qed.

Lemma X22_upload_request_witness :
  In (Fetch (PostUpload sheet)) (trace (handleUpload armed world_success))
  /\ file armed = Some sheet /\ probe_passes world_success.
Proof.
  assert (Hs : In (Fetch (PostUpload sheet))
                  (trace (handleUpload armed world_success))).
  { right. right. right. left. reflexivity. }
  split; [exact Hs|].
  exact (X22_upload_request_needs_file_and_probe armed world_success sheet
           Hs).
Defined.

(** ** Controls *)

(** X23.  When the Process button is shown enabled, no result is
    displayed, the busy indicator is off and a file is selected, so a
    click never meets the "select a file first" branch: the run starts
    with the probe. *)
Theorem X23_enabled_process_button_probes_first
  (s : UploadSession) (w : World) (spinner : bool)
  (Henabled : processButton (render s) = Some (false, spinner)) :
  spinner = false /\ result s = None /\ uploading s = false /\
  exists f rest,
    file s = Some f /\
    trace (handleUpload s w) = Fetch GetHealth :: rest.
Proof.
  unfold render in Henabled. cbn in Henabled.
  destruct (result s) as [r|]; cbn in Henabled; [discriminate|].
  destruct (file s) as [f|] eqn:Hf; cbn in Henabled; [|discriminate].
  destruct (uploading s); cbn in Henabled; [discriminate|].
  injection Henabled as <-. repeat split.
  exists f.
  destruct (testBackendConnection_total w) as ([|] & Hb).
  - pose proof (testBackendConnection_true_passes w Hb) as Hp.
    rewrite (handleUpload_attempted s w f Hf Hp).
    eexists. split; reflexivity.
  - unfold handleUpload. rewrite Hf, Hb.
    eexists. split; reflexivity.
Qed.

Lemma X23_enabled_process_button_witness :
  processButton (render armed) = Some (false, false) /\
  exists f rest,
    file armed = Some f /\
    trace (handleUpload armed world_degraded) = Fetch GetHealth :: rest.
Proof.
  split; [reflexivity|].
  destruct (X23_enabled_process_button_probes_first armed world_degraded
              false eq_refl) as (_ & _ & _ & Hrun).
  exact Hrun.
Defined.
